(** * Shallow embedding of the mobu / sciencemonkey Jupyter client and
    the monkey business factory.

    Sources: [src/mobu/jupyterclient.py] (class [JupyterClient]) and
    [src/sciencemonkey/monkeybusinessfactory.py]
    ([MonkeyBusinessFactory.create]).

    The client talks to a remote server.  The server side is an
    environment: a queue of HTTP responses (one per request, in order) and
    a queue of websocket messages.  Every request, sleep, log line and
    websocket action is appended to a trace, so that statements about what
    the client "issues" are statements about the trace.  The two
    [while True] loops of the source take a fuel argument; when the fuel or
    the environment runs out the run ends in [OutOfFuel] or [Blocked],
    never in a result or an exception. *)

From Stdlib Require Import ZArith Ascii.
From stdpp Require Import base gmap strings list.

Open Scope Z_scope.
Set Warnings "-register-all".

(** ** JSON values, as Python holds parsed JSON. Numbers are integers. *)

Inductive json : Type :=
| JNull
| JBool (b : bool)
| JNum (n : Z)
| JStr (s : string)
| JArr (xs : list json)
| JObj (kvs : list (string * json)).

(** Python's [x == "s"] for a parsed JSON value [x] and a literal string. *)
Definition py_eq_str (j : json) (s : string) : bool :=
  match j with
  | JStr t => String.eqb t s
  | _ => false
  end.

(** Python's [==] on parsed JSON values. *)
Fixpoint json_eqb (a b : json) : bool :=
  match a, b with
  | JNull, JNull => true
  | JBool x, JBool y => Bool.eqb x y
  | JNum x, JNum y => Z.eqb x y
  | JStr x, JStr y => String.eqb x y
  | JArr xs, JArr ys =>
      (fix go (xs ys : list json) : bool :=
         match xs, ys with
         | [], [] => true
         | x :: xs', y :: ys' => json_eqb x y && go xs' ys'
         | _, _ => false
         end) xs ys
  | JObj xs, JObj ys =>
      (fix go (xs ys : list (string * json)) : bool :=
         match xs, ys with
         | [], [] => true
         | (k, x) :: xs', (l, y) :: ys' =>
             String.eqb k l && json_eqb x y && go xs' ys'
         | _, _ => false
         end) xs ys
  | _, _ => false
  end.

(** ** Exceptions raised by the modelled code. *)

Inductive exn : Type :=
(** [Exception(f"Error {r.status} from {r.url}")] *)
| ExnStatus (status : Z) (u : string)
(** [Exception(f"Redirected to {r.url} but expected {home_url}")] *)
| ExnRedirect (u expected : string)
(** [Exception(f"Error running python {r}")] *)
| ExnPython (r : json)
(** [KeyError]: subscript of a dict with a missing key *)
| KeyError (key : string)
(** [TypeError]: subscript of a non-dict value with a string *)
| TypeError
(** aiohttp's [ContentTypeError] from [r.json()] on a non-JSON body *)
| ContentTypeError
(** [ValueError(f"Unknown business {business}")] *)
| ValueError (business : json).

Inductive result (A : Type) : Type :=
| Ok (a : A)
| Err (e : exn).
Arguments Ok {A} a.
Arguments Err {A} e.

(** [j[k]] for a parsed JSON value [j]. *)
Definition getitem (j : json) (k : string) : result json :=
  match j with
  | JObj kvs =>
      match list_find (fun kv => fst kv = k) kvs with
      | Some (_, (_, v)) => Ok v
      | None => Err (KeyError k)
      end
  | _ => Err TypeError
  end.

(** ** HTTP responses, requests and the trace. *)

(** A response as the client sees it after aiohttp followed the redirects
    (unless they were disabled): [url] is [str(r.url)], the final URL. *)
Record response : Type := mk_response {
  status : Z;
  url : string;
  set_cookies : list (string * string);
  text : string;
  rjson : option json
}.

Inductive method : Type := GET | POST | DELETE.

Inductive payload : Type :=
| NoData
| FormData (fields : list (string * string))
| JsonData (j : json).

Inductive level : Type := LvlInfo | LvlError.

Inductive log_arg : Type :=
| AStr (s : string)
| AInt (z : Z)
| AResp (r : response).

Inductive event : Type :=
(** a request, with the headers it carries (session defaults merged with
    the per-request ones) and whether redirects are followed *)
| EvRequest (meth : method) (u : string) (hdrs : gmap string string)
            (data : payload) (allow_redirects : bool)
| EvReadText (u : string)
| EvReadJson (u : string)
| EvSleep (secs : Z)
| EvLog (lvl : level) (fmt : string) (args : list log_arg)
| EvWsConnect (u : string)
| EvWsSend (m : json)
| EvWsReceive (m : json).

(** ** The client object. *)

(** The attributes of [mobu.user.User] the client reads. *)
Record User : Type := mk_user {
  username : string;
  token : string
}.

(** The parts of aiohttp's [ClientSession] the client uses. *)
Record ClientSession : Type := mk_session {
  default_headers : gmap string string;
  cookie_jar : gmap string string
}.

Record JupyterClient : Type := mk_client {
  user : User;
  session : ClientSession;
  headers : gmap string string;
  xsrftoken : string;
  jupyter_url : string
}.

(** [string.ascii_uppercase + string.digits] *)
Definition xsrf_alphabet : string := "ABCDEFGHIJKLMNOPQRSTUVWXYZ0123456789".

(** [random.choices(pop, k=k)]: the [i]-th draw of the random source
    [rng] selects [pop[rng i mod len(pop)]]. *)
Fixpoint random_choices (pop : string) (k : nat) (rng : nat -> nat) : string :=
  match k with
  | O => EmptyString
  | S k' =>
      let c := default "0"%char
                 (String.get (rng O mod String.length pop)%nat pop) in
      String c (random_choices pop k' (fun i => rng (S i)))
  end.

(** [JupyterClient.__init__]; [environment_url] is
    [Configuration.environment_url]. *)
Definition JupyterClient_init (environment_url : string) (u : User)
    (rng : nat -> nat) : JupyterClient :=
  let jupyter_url := environment_url +:+ "/nb/" in
  let xsrftoken := random_choices xsrf_alphabet 16 rng in
  let headers : gmap string string :=
    list_to_map [("Authorization", "Bearer " +:+ token u);
                 ("x-xsrftoken", xsrftoken)] in
  let session := {| default_headers := headers; cookie_jar := ∅ |} in
  let session := {| default_headers := default_headers session;
                    cookie_jar := <["_xsrf" := xsrftoken]> (cookie_jar session) |} in
  {| user := u; session := session; headers := headers;
     xsrftoken := xsrftoken; jupyter_url := jupyter_url |}.

(** ** The client monad: state, exceptions and a server environment. *)

Record world : Type := mk_world {
  client : JupyterClient;      (** [self] *)
  responses : list response;   (** the server's answers, in order *)
  ws_inbox : list json;        (** messages the kernel channel will send *)
  trace : list event           (** what the client did, oldest first *)
}.

Inductive outcome (A : Type) : Type :=
| Done (a : A)
| Raised (e : exn)
| Blocked        (** waiting for an answer the environment never gives *)
| OutOfFuel.     (** a [while True] loop ran past its fuel *)
Arguments Done {A} a.
Arguments Raised {A} e.
Arguments Blocked {A}.
Arguments OutOfFuel {A}.

Definition M (A : Type) : Type := world -> outcome A * world.

Global Instance M_ret : MRet M := fun A a w => (Done a, w).
Global Instance M_bind : MBind M := fun A B f m w =>
  match m w with
  | (Done a, w') => f a w'
  | (Raised e, w') => (Raised e, w')
  | (Blocked, w') => (Blocked, w')
  | (OutOfFuel, w') => (OutOfFuel, w')
  end.

Definition throw {A} (e : exn) : M A := fun w => (Raised e, w).
Definition out_of_fuel {A} : M A := fun w => (OutOfFuel, w).
Definition get_self : M JupyterClient := fun w => (Done (client w), w).

Definition emit (ev : event) : M unit := fun w =>
  (Done tt, {| client := client w; responses := responses w;
               ws_inbox := ws_inbox w; trace := trace w ++ [ev] |}).

(** Raise the error of a Python expression that may fail. *)
Definition lift {A} (r : result A) : M A :=
  match r with Ok a => mret a | Err e => throw e end.

Definition log (lvl : level) (fmt : string) (args : list log_arg) : M unit :=
  emit (EvLog lvl fmt args).

(** [await asyncio.sleep(secs)] *)
Definition sleep (secs : Z) : M unit := emit (EvSleep secs).

(** aiohttp stores the cookies a response sets in the session's jar. *)
Definition store_cookies (c : JupyterClient) (r : response) : JupyterClient :=
  let s := session c in
  {| user := user c;
     session := {| default_headers := default_headers s;
                   cookie_jar := foldl (fun jar kv => <[fst kv := snd kv]> jar)
                                       (cookie_jar s) (set_cookies r) |};
     headers := headers c; xsrftoken := xsrftoken c;
     jupyter_url := jupyter_url c |}.

(** [self.session.<meth>(u, headers=hdrs, data=..., allow_redirects=...)]:
    the per-request headers override the session's default headers. *)
Definition request (meth : method) (u : string) (hdrs : gmap string string)
    (data : payload) (allow_redirects : bool) : M response := fun w =>
  let c := client w in
  let ev := EvRequest meth u (hdrs ∪ default_headers (session c)) data
                      allow_redirects in
  match responses w with
  | [] => (Blocked, {| client := c; responses := [];
                       ws_inbox := ws_inbox w; trace := trace w ++ [ev] |})
  | r :: rs => (Done r, {| client := store_cookies c r; responses := rs;
                           ws_inbox := ws_inbox w; trace := trace w ++ [ev] |})
  end.

(** [await r.text()] *)
Definition read_text (r : response) : M string :=
  emit (EvReadText (url r)) ;; mret (text r).

(** [await r.json()] *)
Definition read_json (r : response) : M json :=
  emit (EvReadJson (url r)) ;;
  match rjson r with Some j => mret j | None => throw ContentTypeError end.

(** [self.session.ws_connect(u)]; the handshake is taken to succeed. *)
Definition ws_connect (u : string) : M unit := emit (EvWsConnect u).

(** [await ws.send_json(m)] *)
Definition ws_send_json (m : json) : M unit := emit (EvWsSend m).

(** [await ws.receive_json()] *)
Definition ws_receive_json : M json := fun w =>
  match ws_inbox w with
  | [] => (Blocked, w)
  | m :: ms => (Done m, {| client := client w; responses := responses w;
                           ws_inbox := ms; trace := trace w ++ [EvWsReceive m] |})
  end.

(** ** The methods of [JupyterClient]. *)

Definition hub_login : M unit :=
  self ← get_self;
  r ← request GET (jupyter_url self +:+ "hub/login") ∅ NoData true;
  if negb (status r =? 200) then throw (ExnStatus (status r) (url r)) else
  let home_url := jupyter_url self +:+ "hub/home" in
  if negb (String.eqb (url r) home_url) then throw (ExnRedirect (url r) home_url)
  else mret tt.

Definition lab_login : M unit :=
  self ← get_self;
  log LvlInfo "Logging into lab" [] ;;
  let lab_url := jupyter_url self +:+ "user/" +:+ username (user self) +:+ "/lab" in
  r ← request GET lab_url ∅ NoData true;
  if negb (status r =? 200) then throw (ExnStatus (status r) (url r))
  else mret tt.

Definition is_lab_running : M bool :=
  self ← get_self;
  log LvlInfo "Is lab running?" [] ;;
  let hub_url := jupyter_url self +:+ "hub" in
  r ← request GET hub_url ∅ NoData true;
  (if negb (status r =? 200)
   then log LvlError "Error {} from {}" [AInt (status r); AStr (url r)]
   else mret tt) ;;
  let spawn_url := jupyter_url self +:+ "hub/spawn" in
  log LvlInfo "Going to {} redirected to {}" [AStr hub_url; AStr (url r)] ;;
  if String.eqb (url r) spawn_url then mret false else mret true.

(** The [while True] loop of [spawn_lab]. *)
Fixpoint poll_progress (fuel : nat) (progress_url lab_url : string) : M unit :=
  match fuel with
  | O => out_of_fuel
  | S fuel' =>
      r ← request GET progress_url ∅ NoData true;
      if String.eqb (url r) lab_url then
        log LvlInfo "Lab spawned, redirected to {}" [AStr (url r)]
      else
        log LvlInfo "Still waiting for lab to spawn {}" [AResp r] ;;
        sleep 15 ;;
        poll_progress fuel' progress_url lab_url
  end.

Definition spawn_body : list (string * string) :=
  [("kernel_image", "lsstsqre/sciplat-lab:recommended");
   ("image_tag", "latest");
   ("size", "small")].

Definition spawn_lab (fuel : nat) : M unit :=
  self ← get_self;
  let body := spawn_body in
  let spawn_url := jupyter_url self +:+ "hub/spawn" in
  let lab_url := jupyter_url self +:+ "user/" +:+ username (user self) +:+ "/lab" in
  (* DM-23864: Do a get on the spawn URL even if I don't have to. *)
  r ← request GET spawn_url ∅ NoData true;
  read_text r ;;
  r ← request POST spawn_url ∅ (FormData body) false;
  if negb (status r =? 302) then throw (ExnStatus (status r) (url r)) else
  let progress_url := url r in
  log LvlInfo "Watching progress url {}" [AStr progress_url] ;;
  poll_progress fuel progress_url lab_url.

Definition ensure_lab (fuel : nat) : M unit :=
  log LvlInfo "Ensure lab" [] ;;
  is_lab_running ≫= fun (running : bool) =>
  if running then lab_login else spawn_lab fuel.

Definition delete_lab : M unit :=
  self ← get_self;
  let hdrs : gmap string string := {[ "Referer" := jupyter_url self +:+ "hub/home" ]} in
  let server_url :=
    jupyter_url self +:+ "hub/api/users/" +:+ username (user self) +:+ "/server" in
  log LvlInfo "Deleting lab for {} at {}"
      [AStr (username (user self)); AStr server_url] ;;
  r ← request DELETE server_url hdrs NoData true;
  if existsb (Z.eqb (status r)) [200; 202; 204] then mret tt
  else throw (ExnStatus (status r) (url r)).

Definition create_kernel (kernel_name : string) : M json :=
  self ← get_self;
  let kernel_url := jupyter_url self +:+ "user/" +:+ username (user self) +:+ "/api/kernels" in
  let body := JObj [("name", JStr kernel_name)] in
  r ← request POST kernel_url ∅ (JsonData body) true;
  if negb (status r =? 201) then throw (ExnStatus (status r) (url r)) else
  response ← read_json r;
  lift (getitem response "id").

(** The [while True] receive loop of [run_python]. *)
Fixpoint receive_loop (fuel : nat) (msg_id : string) : M json :=
  match fuel with
  | O => out_of_fuel
  | S fuel' =>
      r ← ws_receive_json;
      msg_type ← lift (getitem r "msg_type");
      if py_eq_str msg_type "error" then throw (ExnPython r)
      else if py_eq_str msg_type "stream" then
        parent_header ← lift (getitem r "parent_header");
        parent_id ← lift (getitem parent_header "msg_id");
        if py_eq_str parent_id msg_id then
          content ← lift (getitem r "content");
          lift (getitem content "text")
        else receive_loop fuel' msg_id
      else receive_loop fuel' msg_id
  end.

(** The execute request [run_python] sends. *)
Definition execute_request (msg_id code : string) : json :=
  JObj [("header", JObj [("username", JStr ""); ("version", JStr "5.0");
                         ("session", JStr ""); ("msg_id", JStr msg_id);
                         ("msg_type", JStr "execute_request")]);
        ("parent_header", JObj []);
        ("channel", JStr "shell");
        ("content", JObj [("code", JStr code); ("silent", JBool false);
                          ("store_history", JBool false);
                          ("user_expressions", JObj []);
                          ("allow_stdin", JBool false)]);
        ("metadata", JObj []);
        ("buffers", JObj [])].

(** [run_python]; [msg_id] is the value [uuid4().hex] drew. *)
Definition run_python (kernel_id code msg_id : string) (fuel : nat) : M json :=
  self ← get_self;
  let kernel_url := jupyter_url self +:+ "user/" +:+ username (user self)
                    +:+ "/api/kernels/" +:+ kernel_id +:+ "/channels" in
  let msg := execute_request msg_id code in
  ws_connect kernel_url ;;
  ws_send_json msg ;;
  receive_loop fuel msg_id.

(** [dump]: one entry per cookie of the jar, given as its name and value
    (the source renders each cookie with [str]). *)
Definition dump : M (list (string * string)) :=
  self ← get_self;
  mret (map_to_list (cookie_jar (session self))).

(** ** Monkeys and [MonkeyBusinessFactory]. *)

(** The business classes of [sciencemonkey.business]. *)
Inductive business_class : Type :=
| Business
| JupyterLoginLoop
| JupyterPythonLoop.

(** [sciencemonkey.user.User(username, uidnumber)], holding the request's
    values as they are. *)
Record SMUser : Type := mk_smuser {
  sm_username : json;
  sm_uidnumber : json
}.

(** A [Monkey] after [create] set its [business]. *)
Record Monkey : Type := mk_monkey {
  monkey_user : SMUser;
  business : business_class
}.

Module MonkeyBusinessFactory.

(** [MonkeyBusinessFactory.create(body)]; [body] is the request's JSON
    dict. *)
Definition create (body : gmap string json) : result Monkey :=
  match body !! "username" with
  | None => Err (KeyError "username")
  | Some username =>
  match body !! "uidnumber" with
  | None => Err (KeyError "uidnumber")
  | Some uidnumber =>
  let business := default JNull (body !! "business") in
  let u := {| sm_username := username; sm_uidnumber := uidnumber |} in
  match business with
  | JNull => Ok {| monkey_user := u; business := Business |}
  | _ =>
      if py_eq_str business "JupyterLoginLoop" then
        Ok {| monkey_user := u; business := JupyterLoginLoop |}
      else if py_eq_str business "JupyterPythonLoop" then
        Ok {| monkey_user := u; business := JupyterPythonLoop |}
      else Err (ValueError business)
  end end end.

End MonkeyBusinessFactory.

(** Modelled from the spec: the request handler that registers monkeys
    ([post_user] of [mobu.handlers.external.user] and the registry it
    uses) is not among the sources.  Spec 4.3 and 6: [create] validates
    the request and builds the monkey, which is then registered under its
    username; the registry maps usernames to monkeys and never holds two
    monkeys for one username (this model replaces an existing entry, one
    of the two policies the spec allows).  A failing [create] leaves the
    registry as it was. *)
Definition post_user (body : gmap string json) (reg : list (json * Monkey))
    : result Monkey * list (json * Monkey) :=
  match MonkeyBusinessFactory.create body with
  | Ok m =>
      let name := sm_username (monkey_user m) in
      (Ok m, (name, m) :: filter (fun kv => negb (json_eqb (fst kv) name)) reg)
  | Err e => (Err e, reg)
  end.

(** ** Observations on traces. *)

Definition is_log (ev : event) : bool :=
  match ev with EvLog _ _ _ => true | _ => false end.

(** The trace without its log lines: the requests, reads, sleeps and
    websocket actions. *)
Definition io_trace (t : list event) : list event :=
  filter (fun ev => negb (is_log ev)) t.

(** ** Test fixtures. *)

Definition test_user : User := {| username := "alice"; token := "tok" |}.
Definition test_client : JupyterClient :=
  JupyterClient_init "https://ex.org" test_user (fun i => i).
Definition resp (s : Z) (u : string) : response :=
  {| status := s; url := u; set_cookies := []; text := ""; rjson := None |}.
Definition test_world (rs : list response) (inbox : list json) : world :=
  {| client := test_client; responses := rs; ws_inbox := inbox; trace := [] |}.

Definition C5_body (b : option json) : gmap string json :=
  match b with
  | Some v => list_to_map [("username", JStr "bob"); ("uidnumber", JNum 1000);
                           ("business", v)]
  | None => list_to_map [("username", JStr "bob"); ("uidnumber", JNum 1000)]
  end.

Definition C3_stream (parent text_ : string) : json :=
  JObj [("msg_type", JStr "stream"); ("parent_header", JObj [("msg_id", JStr parent)]);
        ("content", JObj [("name", JStr "stdout"); ("text", JStr text_)])].

(** ** Runs of the client. *)

(** The requests and sleeps of [n] polls of [spawn_lab]'s loop that did
    not land on the lab: each is a GET of the progress URL followed by
    [asyncio.sleep(15)]. *)
Fixpoint unsuccessful_polls (n : nat) (progress_url : string)
    (hd : gmap string string) : list event :=
  match n with
  | O => []
  | S n' => EvRequest GET progress_url (∅ ∪ hd) NoData true :: EvSleep 15
              :: unsuccessful_polls n' progress_url hd
  end.

(** The protocol operations of [JupyterClient], with their arguments and
    the values the random sources drew. *)
Inductive protocol_op : Type :=
| OpHubLogin
| OpEnsureLab (fuel : nat)
| OpLabLogin
| OpIsLabRunning
| OpSpawnLab (fuel : nat)
| OpDeleteLab
| OpCreateKernel (kernel_name : string)
| OpRunPython (kernel_id code msg_id : string) (fuel : nat)
| OpDump.

Definition exec_op (op : protocol_op) : M unit :=
  match op with
  | OpHubLogin => hub_login
  | OpEnsureLab fuel => ensure_lab fuel
  | OpLabLogin => lab_login
  | OpIsLabRunning => is_lab_running ≫= fun _ => mret tt
  | OpSpawnLab fuel => spawn_lab fuel
  | OpDeleteLab => delete_lab
  | OpCreateKernel name => create_kernel name ≫= fun _ => mret tt
  | OpRunPython kid code msg_id fuel =>
      run_python kid code msg_id fuel ≫= fun _ => mret tt
  | OpDump => dump ≫= fun _ => mret tt
  end.

(** Any sequence of operations on one client, each run to its end whether
    it returned, raised or stopped waiting. *)
Definition run_ops (ops : list protocol_op) (w : world) : world :=
  fold_left (fun w op => snd (exec_op op w)) ops w.

(** The attributes of the client that no operation should change. *)
Definition frozen (c : JupyterClient)
    : User * gmap string string * string * string * gmap string string :=
  (user c, headers c, xsrftoken c, jupyter_url c, default_headers (session c)).

(** An operation of the client monad that leaves the [frozen] attributes
    alone and only appends to the trace. *)
Definition well_behaved {A} (m : M A) : Prop :=
  forall w, frozen (client (snd (m w))) = frozen (client w) /\
            exists t, trace (snd (m w)) = trace w ++ t.



(** The responses still to come set no cookie. *)
Definition no_set_cookies (w : world) : Prop :=
  Forall (fun r => set_cookies r = []) (responses w).

(** An operation that, while the server sets no cookie, leaves the cookie
    jar alone. *)
Definition jar_stable {A} (m : M A) : Prop :=
  forall w, no_set_cookies w ->
    no_set_cookies (snd (m w)) /\
    cookie_jar (session (client (snd (m w)))) = cookie_jar (session (client w)).

(** * Properties *)

(** ** Small runs. *)

Example xsrftoken_test : xsrftoken test_client = "ABCDEFGHIJKLMNOP".
Proof. reflexivity. Qed.

Example hub_login_test :
  fst (hub_login (test_world [resp 200 "https://ex.org/nb/hub/home"] [])) = Done tt.
Proof. reflexivity. Qed.

Example hub_login_test2 :
  fst (hub_login (test_world [resp 200 "https://ex.org/nb/hub/x"] [])) =
  Raised (ExnRedirect "https://ex.org/nb/hub/x" "https://ex.org/nb/hub/home").
Proof. reflexivity. Qed.

Example spawn_lab_test :
  fst (spawn_lab 5 (test_world [resp 200 "a"; resp 302 "p"; resp 200 "q";
                                resp 200 "https://ex.org/nb/user/alice/lab"] [])) = Done tt.
Proof. reflexivity. Qed.

Example create_test :
  MonkeyBusinessFactory.create
    (list_to_map [("username", JStr "bob"); ("uidnumber", JNum 1000);
                  ("business", JStr "")]) = Err (ValueError (JStr "")).
Proof. reflexivity. Qed.


(** ** The factory. *)

Lemma py_eq_str_JStr (s t : string) : py_eq_str (JStr s) t = true <-> s = t.
Proof. simpl. apply String.eqb_eq. Qed.

Lemma py_eq_str_false (j : json) (t : string) :
  j <> JStr t -> py_eq_str j t = false.
Proof.
  intros H. destruct j; simpl; try reflexivity.
  apply String.eqb_neq. congruence.
Qed.

(** C5: with [username] and [uidnumber] present, an absent [business]
    selects [Business] (the Base loop), ["JupyterLoginLoop"] and
    ["JupyterPythonLoop"] select the loops of those names, and any other
    non-null value fails with [ValueError] (UnknownBusiness) and leaves the
    registry as it was. *)
Theorem create_selects_business (body : gmap string json) (name uid : json) :
  body !! "username" = Some name ->
  body !! "uidnumber" = Some uid ->
  let u := {| sm_username := name; sm_uidnumber := uid |} in
  (body !! "business" = None ->
   MonkeyBusinessFactory.create body = Ok {| monkey_user := u; business := Business |}) /\
  (body !! "business" = Some (JStr "JupyterLoginLoop") ->
   MonkeyBusinessFactory.create body =
     Ok {| monkey_user := u; business := JupyterLoginLoop |}) /\
  (body !! "business" = Some (JStr "JupyterPythonLoop") ->
   MonkeyBusinessFactory.create body =
     Ok {| monkey_user := u; business := JupyterPythonLoop |}) /\
  (forall (b : json) (reg : list (json * Monkey)),
   body !! "business" = Some b -> b <> JNull ->
   b <> JStr "JupyterLoginLoop" -> b <> JStr "JupyterPythonLoop" ->
   MonkeyBusinessFactory.create body = Err (ValueError b) /\
   post_user body reg = (Err (ValueError b), reg)).
Proof.
  intros Hn Hu u. unfold post_user, MonkeyBusinessFactory.create.
  rewrite Hn, Hu. split; [|split; [|split]].
  - intros Hb. rewrite Hb. reflexivity.
  - intros Hb. rewrite Hb. reflexivity.
  - intros Hb. rewrite Hb. reflexivity.
  - intros b reg Hb Hnull Hl Hp. rewrite Hb. simpl.
    rewrite (py_eq_str_false b _ Hl), (py_eq_str_false b _ Hp).
    destruct b; [congruence | ..]; split; reflexivity.
Qed.

Lemma create_selects_business_witness :
  MonkeyBusinessFactory.create (C5_body (Some (JStr "JupyterPythonLoop"))) =
    Ok {| monkey_user := {| sm_username := JStr "bob"; sm_uidnumber := JNum 1000 |};
          business := JupyterPythonLoop |} /\
  post_user (C5_body (Some (JStr "Nope"))) [] = (Err (ValueError (JStr "Nope")), []).
Proof.
  split.
  - apply (create_selects_business (C5_body (Some (JStr "JupyterPythonLoop")))
             (JStr "bob") (JNum 1000)); reflexivity.
  - apply (create_selects_business (C5_body (Some (JStr "Nope")))
             (JStr "bob") (JNum 1000)); try reflexivity; discriminate.
Defined.

(** C6: a request without [username] or without [uidnumber] fails with a
    [KeyError] (InvalidRequest) and registers nothing. *)
Theorem create_requires_fields (body : gmap string json) (reg : list (json * Monkey)) :
  body !! "username" = None \/ body !! "uidnumber" = None ->
  exists k, MonkeyBusinessFactory.create body = Err (KeyError k) /\
            post_user body reg = (Err (KeyError k), reg).
Proof.
  unfold post_user, MonkeyBusinessFactory.create.
  intros [Hn | Hu].
  - rewrite Hn. eexists. split; reflexivity.
  - destruct (body !! "username"); [rewrite Hu|]; eexists; split; reflexivity.
Qed.

Lemma create_requires_fields_witness :
  exists k, MonkeyBusinessFactory.create
              (list_to_map [("username", JStr "bob")]) = Err (KeyError k) /\
            post_user (list_to_map [("username", JStr "bob")]) [] =
              (Err (KeyError k), []).
Proof. apply create_requires_fields. right. reflexivity. Defined.

(** C9: a [business] field holding the empty string fails with
    [ValueError] (UnknownBusiness) and leaves the registry as it was; a
    monkey with the [Business] (Base) loop comes only from a request whose
    [business] is absent or null. *)
Theorem create_empty_business (body : gmap string json) (name uid : json) :
  body !! "username" = Some name ->
  body !! "uidnumber" = Some uid ->
  (body !! "business" = Some (JStr "") ->
   forall reg : list (json * Monkey),
   MonkeyBusinessFactory.create body = Err (ValueError (JStr "")) /\
   post_user body reg = (Err (ValueError (JStr "")), reg)) /\
  (forall m : Monkey, MonkeyBusinessFactory.create body = Ok m ->
   business m = Business ->
   body !! "business" = None \/ body !! "business" = Some JNull).
Proof.
  intros Hn Hu. unfold post_user, MonkeyBusinessFactory.create.
  rewrite Hn, Hu. split.
  - intros Hb reg. rewrite Hb. split; reflexivity.
  - intros m Hc Hm. destruct (body !! "business") as [b|]; [|left; reflexivity].
    right. simpl in Hc. destruct b; try reflexivity;
    repeat match goal with
    | H : context [if ?c then _ else _] |- _ => destruct c
    end; inversion Hc; subst; discriminate.
Qed.

Lemma create_empty_business_witness :
  MonkeyBusinessFactory.create (C5_body (Some (JStr ""))) = Err (ValueError (JStr "")) /\
  post_user (C5_body (Some (JStr ""))) [] = (Err (ValueError (JStr "")), []).
Proof.
  apply (create_empty_business (C5_body (Some (JStr ""))) (JStr "bob") (JNum 1000));
    reflexivity.
Defined.

(** ** Single-request methods. *)

Ltac destruct_world_in Hr c rs0 inbox tr :=
  match goal with
  | w : world |- _ => destruct w as [c rs0 inbox tr]; cbn in Hr; subst rs0
  end.

(** Unfold the monad and the primitives on a world whose response queue is
    known. *)
Ltac run_client Hr :=
  let c := fresh "c" in let rs0 := fresh "rs0" in
  let inbox := fresh "inbox" in let tr := fresh "tr" in
  destruct_world_in Hr c rs0 inbox tr;
  cbv [hub_login lab_login is_lab_running delete_lab mbind M_bind mret M_ret
       get_self request emit log throw] in *;
  cbn -[union app io_trace existsb] in *.

(** C2: [hub_login] issues one GET to [hub/login] (redirects followed) and
    returns normally exactly when the response has status 200 and final URL
    [hub/home]; a status other than 200, or another final URL, raises. *)
Theorem hub_login_spec (w : world) (r : response) (rs : list response) :
  responses w = r :: rs ->
  let home_url := jupyter_url (client w) +:+ "hub/home" in
  trace (snd (hub_login w)) =
    trace w ++ [EvRequest GET (jupyter_url (client w) +:+ "hub/login")
                  (∅ ∪ default_headers (session (client w))) NoData true] /\
  (fst (hub_login w) = Done tt <-> status r = 200 /\ url r = home_url) /\
  (status r <> 200 -> fst (hub_login w) = Raised (ExnStatus (status r) (url r))) /\
  (status r = 200 -> url r <> home_url ->
   fst (hub_login w) = Raised (ExnRedirect (url r) home_url)).
Proof.
  intros Hr home_url. subst home_url. run_client Hr.
  destruct (Z.eqb_spec (status r) 200) as [Hs|Hs]; cbn.
  - destruct (String.eqb_spec (url r) (jupyter_url c +:+ "hub/home")) as [Hu|Hu];
      cbn; (split; [reflexivity|]).
    + split; [tauto|]. split; [congruence|]. intros _ H. congruence.
    + split; [split; [discriminate | tauto]|]. split; [congruence|].
      intros _ _. reflexivity.
  - split; [reflexivity|]. split; [split; [discriminate | tauto]|].
    split; [reflexivity|]. intros H. congruence.
Qed.

Lemma hub_login_spec_witness :
  fst (hub_login (test_world [resp 500 "https://ex.org/nb/hub/home"] [])) =
    Raised (ExnStatus 500 "https://ex.org/nb/hub/home").
Proof.
  destruct (hub_login_spec (test_world [resp 500 "https://ex.org/nb/hub/home"] [])
              (resp 500 "https://ex.org/nb/hub/home") [] eq_refl) as (_ & _ & H & _).
  apply H. discriminate.
Defined.

(** C4: [is_lab_running] returns [False] exactly when the final URL of its
    GET to [hub] is [hub/spawn], and [True] for any other final URL,
    whatever the status; a status other than 200 is logged as an error and
    never raises. *)
Theorem is_lab_running_spec (w : world) (r : response) (rs : list response) :
  responses w = r :: rs ->
  let spawn_url := jupyter_url (client w) +:+ "hub/spawn" in
  fst (is_lab_running w) = Done (negb (String.eqb (url r) spawn_url)) /\
  (fst (is_lab_running w) = Done false <-> url r = spawn_url) /\
  (url r <> spawn_url -> fst (is_lab_running w) = Done true) /\
  (status r <> 200 ->
   In (EvLog LvlError "Error {} from {}" [AInt (status r); AStr (url r)])
      (trace (snd (is_lab_running w)))).
Proof.
  intros Hr spawn_url. subst spawn_url. run_client Hr.
  destruct (Z.eqb_spec (status r) 200) as [Hs|Hs]; cbn;
  destruct (String.eqb_spec (url r) (jupyter_url c +:+ "hub/spawn")) as [Hu|Hu]; cbn;
  (split; [reflexivity|]);
  (split; [split; intros; first [assumption | reflexivity | discriminate | congruence]|]);
  (split; [intros; first [reflexivity | congruence]|]);
  intros H; try congruence.
  all: apply in_app_iff; left; apply in_app_iff; right; left; reflexivity.
Qed.


Lemma is_lab_running_spec_witness :
  fst (is_lab_running (test_world [resp 503 "https://ex.org/nb/hub/spawn"] [])) =
    Done false.
Proof.
  destruct (is_lab_running_spec (test_world [resp 503 "https://ex.org/nb/hub/spawn"] [])
              (resp 503 "https://ex.org/nb/hub/spawn") [] eq_refl) as (_ & H & _).
  apply H. reflexivity.
Defined.

Lemma io_trace_app (t1 t2 : list event) :
  io_trace (t1 ++ t2) = io_trace t1 ++ io_trace t2.
Proof. unfold io_trace. apply filter_app. Qed.

(** C7: [delete_lab] sends one DELETE to [hub/api/users/<name>/server]
    whose [Referer] header is [hub/home], returns normally exactly when the
    status is 200, 202 or 204, and raises for any other status. *)
Theorem delete_lab_spec (w : world) (r : response) (rs : list response) :
  responses w = r :: rs ->
  let c := client w in
  let home_url := jupyter_url c +:+ "hub/home" in
  let server_url :=
    jupyter_url c +:+ "hub/api/users/" +:+ username (user c) +:+ "/server" in
  (exists hdrs : gmap string string,
     io_trace (trace (snd (delete_lab w))) =
       io_trace (trace w) ++ [EvRequest DELETE server_url hdrs NoData true] /\
     hdrs !! "Referer" = Some home_url) /\
  (fst (delete_lab w) = Done tt <-> status r = 200 \/ status r = 202 \/ status r = 204) /\
  (status r <> 200 -> status r <> 202 -> status r <> 204 ->
   fst (delete_lab w) = Raised (ExnStatus (status r) (url r))).
Proof.
  intros Hr c0 home_url server_url. subst c0 home_url server_url.
  run_client Hr. split.
  - eexists. split.
    + destruct (existsb (Z.eqb (status r)) [200; 202; 204]); cbn -[app io_trace];
        rewrite !io_trace_app, <- !app_assoc; reflexivity.
    + apply lookup_union_Some_l, lookup_singleton_eq.
  - cbn. destruct (Z.eqb_spec (status r) 200) as [H0|H0]; cbn;
    [|destruct (Z.eqb_spec (status r) 202) as [H2|H2]; cbn;
      [|destruct (Z.eqb_spec (status r) 204) as [H4|H4]; cbn]];
    (split; [split; intros; first [tauto | discriminate | lia] |]);
    intros; first [reflexivity | lia].
Qed.

Lemma delete_lab_spec_witness :
  fst (delete_lab (test_world [resp 404 "https://ex.org/nb/hub/api/users/alice/server"] [])) =
    Raised (ExnStatus 404 "https://ex.org/nb/hub/api/users/alice/server").
Proof.
  destruct (delete_lab_spec
              (test_world [resp 404 "https://ex.org/nb/hub/api/users/alice/server"] [])
              (resp 404 "https://ex.org/nb/hub/api/users/alice/server") [] eq_refl)
    as (_ & _ & H).
  apply H; discriminate.
Defined.

(** ** Operations keep the client's frozen attributes. *)

Create HintDb wb.

Lemma ret_wb {A} (a : A) : well_behaved (mret a).
Proof. intros w. split; [reflexivity|]. exists []. by rewrite app_nil_r. Qed.

Lemma throw_wb {A} (e : exn) : well_behaved (throw (A:=A) e).
Proof. intros w. split; [reflexivity|]. exists []. by rewrite app_nil_r. Qed.

Lemma out_of_fuel_wb {A} : well_behaved (out_of_fuel (A:=A)).
Proof. intros w. split; [reflexivity|]. exists []. by rewrite app_nil_r. Qed.

Lemma get_self_wb : well_behaved get_self.
Proof. intros w. split; [reflexivity|]. exists []. by rewrite app_nil_r. Qed.

Lemma emit_wb (ev : event) : well_behaved (emit ev).
Proof. intros w. split; [reflexivity|]. by exists [ev]. Qed.

Lemma request_wb meth u hdrs data allow :
  well_behaved (request meth u hdrs data allow).
Proof.
  intros [c rs inbox tr]. unfold request. cbn.
  destruct rs; cbn; (split; [reflexivity|]); eexists; reflexivity.
Qed.

Lemma ws_receive_json_wb : well_behaved ws_receive_json.
Proof.
  intros [c rs inbox tr]. unfold ws_receive_json. cbn.
  destruct inbox; cbn; (split; [reflexivity|]).
  - exists []. by rewrite app_nil_r.
  - eexists; reflexivity.
Qed.

Lemma bind_wb {A B} (m : M A) (f : A -> M B) :
  well_behaved m -> (forall a, well_behaved (f a)) -> well_behaved (m ≫= f).
Proof.
  intros Hm Hf w. unfold mbind, M_bind.
  destruct (Hm w) as [Hc [t Ht]].
  destruct (m w) as [[a|e| |] w'] eqn:E; cbn in *; try (split; [done | by exists t]).
  destruct (Hf a w') as [Hc' [t' Ht']]. split; [congruence|].
  exists (t ++ t'). rewrite Ht', Ht. symmetry. apply app_assoc.
Qed.

Lemma log_wb lvl fmt args : well_behaved (log lvl fmt args).
Proof. apply emit_wb. Qed.

Lemma sleep_wb secs : well_behaved (sleep secs).
Proof. apply emit_wb. Qed.

Lemma ws_connect_wb u : well_behaved (ws_connect u).
Proof. apply emit_wb. Qed.

Lemma ws_send_json_wb m : well_behaved (ws_send_json m).
Proof. apply emit_wb. Qed.

Lemma lift_wb {A} (r : result A) : well_behaved (lift r).
Proof. destruct r; [apply ret_wb | apply throw_wb]. Qed.

#[local] Hint Resolve ret_wb throw_wb out_of_fuel_wb get_self_wb emit_wb request_wb
  ws_receive_json_wb log_wb sleep_wb ws_connect_wb ws_send_json_wb lift_wb : wb.

Ltac wb_tac :=
  repeat first
    [ progress cbv zeta
    | apply bind_wb; [|intros ?]
    | solve [eauto with wb]
    | match goal with
      | |- well_behaved (if ?b then _ else _) => destruct b
      | |- well_behaved (match ?x with _ => _ end) => destruct x
      end ].

Lemma read_text_wb r : well_behaved (read_text r).
Proof. unfold read_text. wb_tac. Qed.

Lemma read_json_wb r : well_behaved (read_json r).
Proof. unfold read_json. wb_tac. Qed.

#[local] Hint Resolve read_text_wb read_json_wb : wb.

Lemma poll_progress_wb fuel p lab : well_behaved (poll_progress fuel p lab).
Proof. induction fuel; cbn [poll_progress]; wb_tac. Qed.

Lemma receive_loop_wb fuel msg_id : well_behaved (receive_loop fuel msg_id).
Proof. induction fuel; cbn [receive_loop]; wb_tac. Qed.

#[local] Hint Resolve poll_progress_wb receive_loop_wb : wb.

Lemma exec_op_wb op : well_behaved (exec_op op).
Proof.
  destruct op; cbn [exec_op];
  unfold hub_login, ensure_lab, lab_login, is_lab_running, spawn_lab, delete_lab,
    create_kernel, run_python, dump; wb_tac.
Qed.

Lemma run_ops_frozen (ops : list protocol_op) (w : world) :
  frozen (client (run_ops ops w)) = frozen (client w).
Proof.
  revert w. induction ops as [|op ops IH]; intros w; [reflexivity|].
  cbn [run_ops fold_left]. unfold run_ops in IH. rewrite IH.
  apply (exec_op_wb op w).
Qed.

(** C8: a new client sends [Authorization: Bearer <token>] and an
    [x-xsrftoken] header holding its random 16-character token, its cookie
    jar's [_xsrf] cookie holds the same token, and no sequence of protocol
    operations changes the token or the headers. *)
Theorem client_headers_fixed (environment_url : string) (u : User) (rng : nat -> nat) :
  let c := JupyterClient_init environment_url u rng in
  headers c !! "Authorization" = Some ("Bearer " +:+ token u) /\
  headers c !! "x-xsrftoken" = Some (xsrftoken c) /\
  default_headers (session c) = headers c /\
  cookie_jar (session c) !! "_xsrf" = Some (xsrftoken c) /\
  xsrftoken c = random_choices xsrf_alphabet 16 rng /\
  (forall (ops : list protocol_op) (w : world), client w = c ->
   headers (client (run_ops ops w)) = headers c /\
   xsrftoken (client (run_ops ops w)) = xsrftoken c /\
   default_headers (session (client (run_ops ops w))) = headers c).
Proof.
  intros c. split; [reflexivity|]. split; [reflexivity|].
  split; [reflexivity|]. split; [reflexivity|]. split; [reflexivity|].
  intros ops w Hw. pose proof (run_ops_frozen ops w) as H.
  unfold frozen in H. rewrite Hw in H. injection H. intros Hd _ Hx Hh _.
  repeat split; assumption.
Qed.

Lemma client_headers_fixed_witness :
  xsrftoken (client (run_ops [OpHubLogin; OpSpawnLab 3; OpDeleteLab]
                       (test_world [resp 200 "https://ex.org/nb/hub/home";
                                    resp 200 "a"; resp 302 "b";
                                    resp 200 "https://ex.org/nb/user/alice/lab";
                                    resp 204 "c"] []))) = "ABCDEFGHIJKLMNOP".
Proof.
  destruct (client_headers_fixed "https://ex.org" test_user (fun i => i))
    as (_ & _ & _ & _ & _ & H).
  destruct (H [OpHubLogin; OpSpawnLab 3; OpDeleteLab]
              (test_world [resp 200 "https://ex.org/nb/hub/home";
                           resp 200 "a"; resp 302 "b";
                           resp 200 "https://ex.org/nb/user/alice/lab";
                           resp 204 "c"] []) eq_refl) as (_ & Hx & _).
  rewrite Hx. reflexivity.
Defined.

(** ** [spawn_lab] and its polling loop. *)

Lemma poll_progress_lands (bad : list response) (good : response)
    (rest : list response) (fuel : nat) (w : world) (p lab : string) :
  responses w = bad ++ good :: rest ->
  Forall (fun r => url r <> lab) bad -> url good = lab ->
  (length bad < fuel)%nat ->
  let hd := default_headers (session (client w)) in
  fst (poll_progress fuel p lab w) = Done tt /\
  io_trace (trace (snd (poll_progress fuel p lab w))) =
    io_trace (trace w) ++ unsuccessful_polls (length bad) p hd ++
    [EvRequest GET p (∅ ∪ hd) NoData true].
Proof.
  revert fuel w. induction bad as [|b bad IH]; intros fuel w Hr Hf Hg Hlen hd;
    (destruct fuel as [|fuel]; [cbn in Hlen; lia|]);
    destruct w as [c rs inbox tr]; cbn in Hr; subst rs hd.
  - cbn [poll_progress]. cbv [mbind M_bind request log emit mret M_ret]. cbn -[app io_trace].
    rewrite (proj2 (String.eqb_eq _ _) Hg). cbn -[app io_trace].
    split; [reflexivity|]. rewrite !io_trace_app, <- !app_assoc. reflexivity.
  - inversion Hf as [|? ? Hb Hf']; subst.
    cbn [poll_progress]. cbv [mbind M_bind request log sleep emit mret M_ret].
    cbn -[app io_trace poll_progress].
    rewrite (proj2 (String.eqb_neq _ _) Hb). cbn -[app io_trace poll_progress].
    match goal with
    | |- context [poll_progress fuel p (url good) ?W] =>
        destruct (IH fuel W eq_refl Hf' eq_refl ltac:(cbn in Hlen |- *; lia))
          as [H1 H2]
    end.
    split; [exact H1|]. rewrite H2. cbn -[app io_trace].
    rewrite !io_trace_app, <- !app_assoc. reflexivity.
Qed.

Lemma poll_progress_never_lands (fuel : nat) (w : world) (p lab : string) :
  Forall (fun r => url r <> lab) (responses w) ->
  fst (poll_progress fuel p lab w) = Blocked \/
  fst (poll_progress fuel p lab w) = OutOfFuel.
Proof.
  revert w. induction fuel as [|fuel IH]; intros w Hf; [right; reflexivity|].
  destruct w as [c rs inbox tr]; cbn in Hf.
  destruct rs as [|r rs]; [left; reflexivity|].
  inversion Hf as [|? ? Hb Hf']; subst.
  cbn [poll_progress]. cbv [mbind M_bind request log sleep emit mret M_ret].
  cbn -[app poll_progress].
  rewrite (proj2 (String.eqb_neq _ _) Hb). cbn -[app poll_progress].
  apply IH. exact Hf'.
Qed.

(** C1: after its GET of the spawn page, [spawn_lab] POSTs the spawn form
    with redirects disabled.  A status other than 302 raises at once and no
    progress poll is made.  On 302 the client GETs the progress URL (the
    POST response's URL) until the final URL is the user's lab: it returns
    after exactly as many polls as it took, sleeping 15 after each
    unsuccessful one; the number of polls is not bounded, and while the
    lab never appears the loop neither returns nor raises. *)
Theorem spawn_lab_spec (fuel : nat) (w : world) (r0 r1 : response)
    (rest : list response) :
  responses w = r0 :: r1 :: rest ->
  let c := client w in
  let hd := default_headers (session c) in
  let spawn_url := jupyter_url c +:+ "hub/spawn" in
  let lab_url := jupyter_url c +:+ "user/" +:+ username (user c) +:+ "/lab" in
  let before_polls :=
    [EvRequest GET spawn_url (∅ ∪ hd) NoData true; EvReadText (url r0);
     EvRequest POST spawn_url (∅ ∪ hd) (FormData spawn_body) false] in
  (status r1 <> 302 ->
   fst (spawn_lab fuel w) = Raised (ExnStatus (status r1) (url r1)) /\
   io_trace (trace (snd (spawn_lab fuel w))) = io_trace (trace w) ++ before_polls /\
   responses (snd (spawn_lab fuel w)) = rest) /\
  (status r1 = 302 ->
   forall (bad : list response) (good : response) (rest' : list response),
   rest = bad ++ good :: rest' ->
   Forall (fun r => url r <> lab_url) bad -> url good = lab_url ->
   (length bad < fuel)%nat ->
   fst (spawn_lab fuel w) = Done tt /\
   io_trace (trace (snd (spawn_lab fuel w))) =
     io_trace (trace w) ++ before_polls ++
     unsuccessful_polls (length bad) (url r1) hd ++
     [EvRequest GET (url r1) (∅ ∪ hd) NoData true]) /\
  (status r1 = 302 -> Forall (fun r => url r <> lab_url) rest ->
   fst (spawn_lab fuel w) = Blocked \/ fst (spawn_lab fuel w) = OutOfFuel).
Proof.
  intros Hr c0 hd spawn_url lab_url before. subst c0 hd spawn_url lab_url before.
  destruct w as [c rs inbox tr]; cbn in Hr; subst rs.
  unfold spawn_lab.
  cbv [mbind M_bind request read_text log throw get_self emit mret M_ret].
  cbn -[app io_trace poll_progress].
  destruct (Z.eqb_spec (status r1) 302) as [H302|H302];
    cbn -[app io_trace poll_progress].
  - split; [intros; contradiction|]. split.
    + intros _ bad good rest' -> Hf Hg Hlen.
      match goal with
      | |- context [poll_progress fuel ?p ?l ?W] =>
          destruct (poll_progress_lands bad good rest' fuel W p l eq_refl Hf Hg Hlen)
            as [H1 H2]
      end.
      split; [exact H1|]. rewrite H2. cbn -[app io_trace].
      rewrite !io_trace_app, <- !app_assoc. reflexivity.
    + intros _ Hf.
      match goal with
      | |- context [poll_progress fuel ?p ?l ?W] =>
          exact (poll_progress_never_lands fuel W p l Hf)
      end.
  - split.
    + intros _. split; [reflexivity|]. split; [|reflexivity].
      rewrite !io_trace_app, <- !app_assoc. reflexivity.
    + split; intros; contradiction.
Qed.

Lemma spawn_lab_spec_witness :
  fst (spawn_lab 4 (test_world [resp 200 "s"; resp 302 "p"; resp 200 "q"; resp 200 "q";
                                resp 200 "https://ex.org/nb/user/alice/lab"] [])) = Done tt /\
  io_trace (trace (snd (spawn_lab 4 (test_world
     [resp 200 "s"; resp 302 "p"; resp 200 "q"; resp 200 "q";
      resp 200 "https://ex.org/nb/user/alice/lab"] [])))) =
    [EvRequest GET "https://ex.org/nb/hub/spawn" (∅ ∪ headers test_client) NoData true;
     EvReadText "s";
     EvRequest POST "https://ex.org/nb/hub/spawn" (∅ ∪ headers test_client)
       (FormData spawn_body) false] ++
    unsuccessful_polls 2 "p" (headers test_client) ++
    [EvRequest GET "p" (∅ ∪ headers test_client) NoData true].
Proof.
  destruct (spawn_lab_spec 4 (test_world [resp 200 "s"; resp 302 "p"; resp 200 "q";
              resp 200 "q"; resp 200 "https://ex.org/nb/user/alice/lab"] [])
              (resp 200 "s") (resp 302 "p")
              [resp 200 "q"; resp 200 "q"; resp 200 "https://ex.org/nb/user/alice/lab"]
              eq_refl) as (_ & H & _).
  apply (H eq_refl [resp 200 "q"; resp 200 "q"] (resp 200 "https://ex.org/nb/user/alice/lab") []).
  - reflexivity.
  - repeat constructor; cbn; discriminate.
  - reflexivity.
  - cbn. lia.
Defined.

(** C10: every call of [spawn_lab] that gets an answer to its first
    request starts with a GET of the spawn page whose body it reads, before
    the spawn POST, whatever the POST then returns. *)
Theorem spawn_lab_gets_spawn_page (fuel : nat) (w : world) (r0 : response)
    (rs : list response) :
  responses w = r0 :: rs ->
  let c := client w in
  let hd := default_headers (session c) in
  let spawn_url := jupyter_url c +:+ "hub/spawn" in
  exists tail : list event,
    io_trace (trace (snd (spawn_lab fuel w))) =
      io_trace (trace w) ++
      [EvRequest GET spawn_url (∅ ∪ hd) NoData true; EvReadText (url r0);
       EvRequest POST spawn_url (∅ ∪ hd) (FormData spawn_body) false] ++ tail.
Proof.
  intros Hr c0 hd spawn_url. subst c0 hd spawn_url.
  destruct w as [c rs0 inbox tr]; cbn in Hr; subst rs0.
  unfold spawn_lab.
  cbv [mbind M_bind request read_text log throw get_self emit mret M_ret].
  destruct rs as [|r1 rest]; cbn -[app io_trace poll_progress].
  - exists []. rewrite !io_trace_app, <- !app_assoc. reflexivity.
  - destruct (Z.eqb_spec (status r1) 302); cbn -[app io_trace poll_progress].
    + match goal with
      | |- context [poll_progress fuel ?p ?l ?W] =>
          destruct (poll_progress_wb fuel p l W) as [_ [t Ht]]
      end.
      exists (io_trace t). rewrite Ht. cbn -[app io_trace].
      rewrite !io_trace_app, <- !app_assoc. reflexivity.
    + exists []. rewrite !io_trace_app, <- !app_assoc. reflexivity.
Qed.

Lemma spawn_lab_gets_spawn_page_witness :
  exists tail : list event,
    io_trace (trace (snd (spawn_lab 3 (test_world [resp 200 "s"; resp 500 "x"] [])))) =
      [EvRequest GET "https://ex.org/nb/hub/spawn" (∅ ∪ headers test_client) NoData true;
       EvReadText "s";
       EvRequest POST "https://ex.org/nb/hub/spawn" (∅ ∪ headers test_client)
         (FormData spawn_body) false] ++ tail.
Proof.
  exact (spawn_lab_gets_spawn_page 3 (test_world [resp 200 "s"; resp 500 "x"] [])
           (resp 200 "s") [resp 500 "x"] eq_refl).
Defined.

(** ** [run_python]. *)

(** C3: [run_python] opens the kernel channel, sends the execute request
    carrying [msg_id], and then receives messages: a message of type
    ["error"] raises with that message as payload; a ["stream"] message
    whose [parent_header.msg_id] is another id is dropped and receiving
    goes on; a ["stream"] message whose [parent_header.msg_id] is [msg_id]
    ends the call with its [content.text], unchanged. *)
Theorem run_python_messages (kernel_id code msg_id : string) :
  (forall (fuel : nat) (w : world),
   let c := client w in
   let kernel_url := jupyter_url c +:+ "user/" +:+ username (user c)
                     +:+ "/api/kernels/" +:+ kernel_id +:+ "/channels" in
   run_python kernel_id code msg_id fuel w =
     receive_loop fuel msg_id
       {| client := c; responses := responses w; ws_inbox := ws_inbox w;
          trace := (trace w ++ [EvWsConnect kernel_url]) ++
                   [EvWsSend (execute_request msg_id code)] |}) /\
  (forall (fuel : nat) (w : world) (m : json) (ms : list json),
   ws_inbox w = m :: ms ->
   let w_next := {| client := client w; responses := responses w;
                    ws_inbox := ms; trace := trace w ++ [EvWsReceive m] |} in
   (getitem m "msg_type" = Ok (JStr "error") ->
    fst (receive_loop (S fuel) msg_id w) = Raised (ExnPython m)) /\
   (forall (ph : json) (pid : string),
    getitem m "msg_type" = Ok (JStr "stream") ->
    getitem m "parent_header" = Ok ph -> getitem ph "msg_id" = Ok (JStr pid) ->
    pid <> msg_id ->
    receive_loop (S fuel) msg_id w = receive_loop fuel msg_id w_next) /\
   (forall (ph content : json) (txt : json),
    getitem m "msg_type" = Ok (JStr "stream") ->
    getitem m "parent_header" = Ok ph -> getitem ph "msg_id" = Ok (JStr msg_id) ->
    getitem m "content" = Ok content -> getitem content "text" = Ok txt ->
    fst (receive_loop (S fuel) msg_id w) = Done txt)).
Proof.
  split.
  - intros fuel [c rs inbox tr]. reflexivity.
  - intros fuel [c rs inbox tr] m ms Hin w_next. subst w_next.
    cbn in Hin. subst inbox. cbn [receive_loop].
    cbv [mbind M_bind ws_receive_json lift mret M_ret throw]. cbn -[receive_loop].
    split; [|split].
    + intros Ht. rewrite Ht. reflexivity.
    + intros ph pid Ht Hph Hpid Hne. rewrite Ht. cbn -[receive_loop].
      rewrite Hph, Hpid. cbn -[receive_loop].
      rewrite (proj2 (String.eqb_neq _ _) Hne). reflexivity.
    + intros ph content txt Ht Hph Hpid Hc Htxt. rewrite Ht. cbn -[receive_loop].
      rewrite Hph, Hpid. cbn -[receive_loop]. rewrite String.eqb_refl.
      rewrite Hc, Htxt. reflexivity.
Qed.

Lemma run_python_messages_witness :
  fst (run_python "k1" "print(2)" "abc" 3
         (test_world [] [C3_stream "other" "no"; C3_stream "abc" "2"])) = Done (JStr "2").
Proof.
  destruct (run_python_messages "k1" "print(2)" "abc") as [Hrun Hloop].
  rewrite Hrun.
  match goal with
  | |- context [receive_loop _ _ ?W] =>
      destruct (Hloop 2%nat W (C3_stream "other" "no") [C3_stream "abc" "2"] eq_refl)
        as (_ & Hskip & _)
  end.
  rewrite (Hskip (JObj [("msg_id", JStr "other")]) "other" eq_refl eq_refl eq_refl
             ltac:(discriminate)).
  match goal with
  | |- context [receive_loop _ _ ?W] =>
      destruct (Hloop 1%nat W (C3_stream "abc" "2") [] eq_refl) as (_ & _ & Hhit)
  end.
  apply (Hhit (JObj [("msg_id", JStr "abc")])
              (JObj [("name", JStr "stdout"); ("text", JStr "2")]));
    reflexivity.
Defined.

(** ** Extra properties: the receive loop of [run_python]. *)






(** A received message with no [msg_type] key (or that is not a JSON
    object) makes [run_python] raise that lookup's error; so does a
    ["stream"] message without [parent_header], or whose [parent_header] has
    no [msg_id]. *)
Theorem receive_loop_malformed (fuel : nat) (msg_id : string) (w : world)
    (m : json) (ms : list json) (e : exn) :
  ws_inbox w = m :: ms ->
  (getitem m "msg_type" = Err e ->
   fst (receive_loop (S fuel) msg_id w) = Raised e) /\
  (getitem m "msg_type" = Ok (JStr "stream") ->
   getitem m "parent_header" = Err e ->
   fst (receive_loop (S fuel) msg_id w) = Raised e) /\
  (forall ph : json, getitem m "msg_type" = Ok (JStr "stream") ->
   getitem m "parent_header" = Ok ph -> getitem ph "msg_id" = Err e ->
   fst (receive_loop (S fuel) msg_id w) = Raised e).
Proof.
  intros Hin. destruct w as [c rs inbox tr]; cbn in Hin; subst inbox.
  cbn [receive_loop]. cbv [mbind M_bind ws_receive_json lift mret M_ret throw].
  cbn -[receive_loop]. split; [|split].
  - intros Ht. rewrite Ht. reflexivity.
  - intros Ht Hph. rewrite Ht. cbn -[receive_loop]. rewrite Hph. reflexivity.
  - intros ph Ht Hph Hpid. rewrite Ht. cbn -[receive_loop]. rewrite Hph.
    cbn -[receive_loop]. rewrite Hpid. reflexivity.
Qed.

Lemma receive_loop_malformed_witness :
  fst (receive_loop 1 "abc" (test_world [] [JObj [("msg_type", JStr "stream")]])) =
    Raised (KeyError "parent_header").
Proof.
  destruct (receive_loop_malformed 0 "abc" (test_world [] [JObj [("msg_type", JStr "stream")]])
              (JObj [("msg_type", JStr "stream")]) [] (KeyError "parent_header") eq_refl)
    as (_ & H & _).
  apply H; reflexivity.
Defined.

(** ** Extra properties: logging into, finding and creating labs. *)

(** [lab_login] GETs [user/<name>/lab] and returns normally exactly when
    the status is 200, raising with the status and URL otherwise. *)
Theorem lab_login_spec (w : world) (r : response) (rs : list response) :
  responses w = r :: rs ->
  let c := client w in
  let lab_url := jupyter_url c +:+ "user/" +:+ username (user c) +:+ "/lab" in
  io_trace (trace (snd (lab_login w))) =
    io_trace (trace w) ++ [EvRequest GET lab_url (∅ ∪ default_headers (session c)) NoData true] /\
  fst (lab_login w) =
    (if status r =? 200 then Done tt else Raised (ExnStatus (status r) (url r))).
Proof.
  intros Hr c0 lab_url. subst c0 lab_url. run_client Hr.
  destruct (Z.eqb_spec (status r) 200); cbn -[app io_trace];
    (split; [rewrite !io_trace_app, <- !app_assoc; reflexivity | reflexivity]).
Qed.

Lemma lab_login_spec_witness :
  fst (lab_login (test_world [resp 403 "https://ex.org/nb/user/alice/lab"] [])) =
    Raised (ExnStatus 403 "https://ex.org/nb/user/alice/lab").
Proof.
  destruct (lab_login_spec (test_world [resp 403 "https://ex.org/nb/user/alice/lab"] [])
              (resp 403 "https://ex.org/nb/user/alice/lab") [] eq_refl) as [_ H].
  exact H.
Defined.

Lemma is_lab_running_outcome (w : world) (r : response) (rs : list response) :
  responses w = r :: rs ->
  fst (is_lab_running w) =
    Done (negb (String.eqb (url r) (jupyter_url (client w) +:+ "hub/spawn"))).
Proof.
  intros Hr. run_client Hr.
  destruct (status r =? 200), (String.eqb (url r) (jupyter_url c +:+ "hub/spawn"));
    reflexivity.
Qed.

(** [ensure_lab] probes the hub and then, on the same client state, logs
    into the running lab when the probe did not land on [hub/spawn], and
    spawns a lab when it did; the probe's status plays no part. *)
Theorem ensure_lab_dispatch (fuel : nat) (w : world) (r : response) (rs : list response) :
  responses w = r :: rs ->
  let w0 := snd (log LvlInfo "Ensure lab" [] w) in
  let w1 := snd (is_lab_running w0) in
  ensure_lab fuel w =
    (if String.eqb (url r) (jupyter_url (client w) +:+ "hub/spawn")
     then spawn_lab fuel w1 else lab_login w1).
Proof.
  intros Hr w0 w1. subst w0 w1.
  unfold ensure_lab. cbv [mbind M_bind log emit]. cbn -[is_lab_running].
  match goal with
  | |- context [is_lab_running ?W] =>
      pose proof (is_lab_running_outcome W r rs Hr) as Ho;
      destruct (is_lab_running W) as [o w1] eqn:E
  end.
  cbn in Ho |- *. subst o.
  destruct (String.eqb (url r) _); reflexivity.
Qed.

Lemma ensure_lab_dispatch_witness :
  fst (ensure_lab 2 (test_world [resp 200 "https://ex.org/nb/hub/home";
                                 resp 200 "https://ex.org/nb/user/alice/lab"] [])) = Done tt.
Proof.
  rewrite (ensure_lab_dispatch 2
             (test_world [resp 200 "https://ex.org/nb/hub/home";
                          resp 200 "https://ex.org/nb/user/alice/lab"] [])
             (resp 200 "https://ex.org/nb/hub/home")
             [resp 200 "https://ex.org/nb/user/alice/lab"] eq_refl).
  reflexivity.
Defined.

(** [create_kernel] POSTs [{"name": kernel_name}] as JSON to
    [user/<name>/api/kernels]; a status other than 201 raises without
    reading the body; on 201 it returns the body's ["id"], raising
    [KeyError] when the body has none and an error when the body is not
    JSON. *)
Theorem create_kernel_spec (kernel_name : string) (w : world) (r : response)
    (rs : list response) :
  responses w = r :: rs ->
  let c := client w in
  let kernel_url := jupyter_url c +:+ "user/" +:+ username (user c) +:+ "/api/kernels" in
  let req := EvRequest POST kernel_url (∅ ∪ default_headers (session c))
                       (JsonData (JObj [("name", JStr kernel_name)])) true in
  (status r <> 201 ->
   fst (create_kernel kernel_name w) = Raised (ExnStatus (status r) (url r)) /\
   trace (snd (create_kernel kernel_name w)) = trace w ++ [req]) /\
  (status r = 201 ->
   trace (snd (create_kernel kernel_name w)) = trace w ++ [req; EvReadJson (url r)] /\
   fst (create_kernel kernel_name w) =
     match rjson r with
     | None => Raised ContentTypeError
     | Some body => match getitem body "id" with
                    | Ok kid => Done kid
                    | Err e => Raised e
                    end
     end).
Proof.
  intros Hr c0 kernel_url req. subst c0 kernel_url req.
  destruct w as [c rs0 inbox tr]; cbn in Hr; subst rs0.
  unfold create_kernel.
  cbv [mbind M_bind get_self request read_json emit throw lift mret M_ret].
  cbn -[app].
  destruct (Z.eqb_spec (status r) 201) as [H|H]; cbn -[app].
  - split; [intros; contradiction|]. intros _.
    destruct (rjson r) as [body|]; cbn -[app];
      [destruct (getitem body "id")|]; cbn -[app];
      (split; [rewrite <- app_assoc; reflexivity | reflexivity]).
  - split; [intros _; split; reflexivity | intros; contradiction].
Qed.

Lemma create_kernel_spec_witness :
  fst (create_kernel "python"
         (test_world [{| status := 201; url := "k"; set_cookies := []; text := "";
                         rjson := Some (JObj [("id", JStr "k-1"); ("name", JStr "python")]) |}] [])) =
    Done (JStr "k-1").
Proof.
  destruct (create_kernel_spec "python"
              (test_world [{| status := 201; url := "k"; set_cookies := []; text := "";
                              rjson := Some (JObj [("id", JStr "k-1"); ("name", JStr "python")]) |}] [])
              {| status := 201; url := "k"; set_cookies := []; text := "";
                 rjson := Some (JObj [("id", JStr "k-1"); ("name", JStr "python")]) |} []
              eq_refl) as [_ H].
  destruct (H eq_refl) as [_ H2]. exact H2.
Defined.

(** ** Extra properties: the anti-forgery token. *)

Lemma random_choices_length (pop : string) (k : nat) (rng : nat -> nat) :
  String.length (random_choices pop k rng) = k.
Proof.
  revert rng. induction k as [|k IH]; intros rng; [reflexivity|].
  cbn [random_choices String.length]. rewrite IH. reflexivity.
Qed.

Lemma string_get_in_range (s : string) (n : nat) :
  (n < String.length s)%nat -> exists c, String.get n s = Some c.
Proof.
  revert n. induction s as [|a s IH]; intros n Hn; cbn in Hn; [lia|].
  destruct n as [|n]; [eauto|]. cbn. apply IH. lia.
Qed.

Lemma random_choices_from (pop : string) (k : nat) (rng : nat -> nat)
    (i : nat) (c : ascii) :
  pop <> EmptyString ->
  String.get i (random_choices pop k rng) = Some c ->
  exists j, String.get j pop = Some c.
Proof.
  intros Hpop. revert rng i. induction k as [|k IH]; intros rng i Hget;
    [destruct i; discriminate|].
  cbn [random_choices] in Hget. destruct i as [|i].
  - cbn in Hget. injection Hget as <-.
    assert (Hlen : String.length pop <> 0%nat) by (destruct pop; [congruence | discriminate]).
    destruct (string_get_in_range pop (rng O mod String.length pop)%nat
                (Nat.mod_upper_bound _ _ Hlen)) as [c' Hc'].
    rewrite Hc'. eauto.
  - cbn in Hget. exact (IH _ _ Hget).
Qed.

(** The token a new client draws is 16 characters long and every
    character is an uppercase ASCII letter or a digit. *)
Theorem xsrftoken_shape (environment_url : string) (u : User) (rng : nat -> nat) :
  let t := xsrftoken (JupyterClient_init environment_url u rng) in
  String.length t = 16%nat /\
  forall (i : nat) (c : ascii), String.get i t = Some c ->
  exists j, String.get j xsrf_alphabet = Some c.
Proof.
  intros t. split.
  - apply random_choices_length.
  - intros i c. apply random_choices_from. discriminate.
Qed.

(** ** Extra properties: the cookie jar and [dump]. *)

Create HintDb jar.

Lemma ret_js {A} (a : A) : jar_stable (mret a).
Proof. intros w H. split; [exact H | reflexivity]. Qed.

Lemma throw_js {A} (e : exn) : jar_stable (throw (A:=A) e).
Proof. intros w H. split; [exact H | reflexivity]. Qed.

Lemma out_of_fuel_js {A} : jar_stable (out_of_fuel (A:=A)).
Proof. intros w H. split; [exact H | reflexivity]. Qed.

Lemma get_self_js : jar_stable get_self.
Proof. intros w H. split; [exact H | reflexivity]. Qed.

Lemma emit_js (ev : event) : jar_stable (emit ev).
Proof. intros w H. split; [exact H | reflexivity]. Qed.

Lemma request_js meth u hdrs data allow : jar_stable (request meth u hdrs data allow).
Proof.
  intros [c rs inbox tr] H. unfold no_set_cookies in *. cbn in H. unfold request. cbn.
  destruct rs as [|r rs]; cbn; [split; [constructor | reflexivity]|].
  inversion H as [|? ? Hr Hrs]; subst. split; [exact Hrs|].
  unfold store_cookies. cbn. rewrite Hr. reflexivity.
Qed.

Lemma ws_receive_json_js : jar_stable ws_receive_json.
Proof.
  intros [c rs inbox tr] H. unfold ws_receive_json. cbn.
  destruct inbox; cbn; split; first [exact H | reflexivity].
Qed.

Lemma bind_js {A B} (m : M A) (f : A -> M B) :
  jar_stable m -> (forall a, jar_stable (f a)) -> jar_stable (m ≫= f).
Proof.
  intros Hm Hf w Hw. unfold mbind, M_bind.
  destruct (Hm w Hw) as [Hw' Hj].
  destruct (m w) as [[a|e| |] w'] eqn:E; cbn in *; try (split; assumption).
  destruct (Hf a w' Hw') as [Hw'' Hj']. split; [exact Hw'' | congruence].
Qed.

Lemma log_js lvl fmt args : jar_stable (log lvl fmt args).
Proof. apply emit_js. Qed.
Lemma sleep_js secs : jar_stable (sleep secs).
Proof. apply emit_js. Qed.
Lemma ws_connect_js u : jar_stable (ws_connect u).
Proof. apply emit_js. Qed.
Lemma ws_send_json_js m : jar_stable (ws_send_json m).
Proof. apply emit_js. Qed.
Lemma lift_js {A} (r : result A) : jar_stable (lift r).
Proof. destruct r; [apply ret_js | apply throw_js]. Qed.

#[local] Hint Resolve ret_js throw_js out_of_fuel_js get_self_js emit_js request_js
  ws_receive_json_js log_js sleep_js ws_connect_js ws_send_json_js lift_js : jar.

Ltac js_tac :=
  repeat first
    [ progress cbv zeta
    | apply bind_js; [|intros ?]
    | solve [eauto with jar]
    | match goal with
      | |- jar_stable (if ?b then _ else _) => destruct b
      | |- jar_stable (match ?x with _ => _ end) => destruct x
      end ].

Lemma read_text_js r : jar_stable (read_text r).
Proof. unfold read_text. js_tac. Qed.
Lemma read_json_js r : jar_stable (read_json r).
Proof. unfold read_json. js_tac. Qed.
#[local] Hint Resolve read_text_js read_json_js : jar.

Lemma poll_progress_js fuel p lab : jar_stable (poll_progress fuel p lab).
Proof. induction fuel; cbn [poll_progress]; js_tac. Qed.
Lemma receive_loop_js fuel msg_id : jar_stable (receive_loop fuel msg_id).
Proof. induction fuel; cbn [receive_loop]; js_tac. Qed.
#[local] Hint Resolve poll_progress_js receive_loop_js : jar.

Lemma exec_op_js op : jar_stable (exec_op op).
Proof.
  destruct op; cbn [exec_op];
  unfold hub_login, ensure_lab, lab_login, is_lab_running, spawn_lab, delete_lab,
    create_kernel, run_python, dump; js_tac.
Qed.

Lemma run_ops_js (ops : list protocol_op) (w : world) :
  no_set_cookies w ->
  cookie_jar (session (client (run_ops ops w))) = cookie_jar (session (client w)).
Proof.
  revert w. induction ops as [|op ops IH]; intros w Hw; [reflexivity|].
  cbn [run_ops fold_left]. unfold run_ops in IH.
  destruct (exec_op_js op w Hw) as [Hw' Hj]. rewrite IH by exact Hw'. exact Hj.
Qed.

(** The client itself puts no cookie in its jar but [_xsrf]: while the
    server sets none, [dump] after any sequence of operations on a new
    client lists exactly the [_xsrf] cookie holding the token, and [dump]
    changes nothing. *)
Theorem dump_only_xsrf (environment_url : string) (u : User) (rng : nat -> nat)
    (ops : list protocol_op) (w : world) :
  client w = JupyterClient_init environment_url u rng -> no_set_cookies w ->
  fst (dump (run_ops ops w)) = Done [("_xsrf", xsrftoken (client w))] /\
  snd (dump (run_ops ops w)) = run_ops ops w.
Proof.
  intros Hc Hw. split; [|reflexivity].
  unfold dump. cbv [mbind M_bind get_self mret M_ret]. cbn.
  rewrite (run_ops_js ops w Hw), Hc. cbn.
  rewrite insert_empty, map_to_list_singleton. reflexivity.
Qed.

Lemma dump_only_xsrf_witness :
  fst (dump (run_ops [OpHubLogin; OpDeleteLab]
               (test_world [resp 200 "https://ex.org/nb/hub/home"; resp 204 "d"] []))) =
    Done [("_xsrf", "ABCDEFGHIJKLMNOP")].
Proof.
  destruct (dump_only_xsrf "https://ex.org" test_user (fun i => i) [OpHubLogin; OpDeleteLab]
              (test_world [resp 200 "https://ex.org/nb/hub/home"; resp 204 "d"] [])
              eq_refl ltac:(repeat constructor)) as [H _].
  exact H.
Defined.

(** ** Extra properties: the factory. *)

(** [create] reads only [username], [uidnumber] and [business]: adding any
    other key to the request changes nothing. *)
Theorem create_ignores_other_keys (body : gmap string json) (k : string) (v : json) :
  k <> "username" -> k <> "uidnumber" -> k <> "business" ->
  MonkeyBusinessFactory.create (<[k := v]> body) = MonkeyBusinessFactory.create body.
Proof.
  intros H1 H2 H3. unfold MonkeyBusinessFactory.create.
  rewrite !lookup_insert_ne by congruence. reflexivity.
Qed.

Lemma create_ignores_other_keys_witness :
  MonkeyBusinessFactory.create (<["debug" := JBool true]> (C5_body (Some (JStr "JupyterLoginLoop")))) =
    MonkeyBusinessFactory.create (C5_body (Some (JStr "JupyterLoginLoop"))).
Proof. apply create_ignores_other_keys; discriminate. Defined.

(** A [business] of JSON [null] is treated exactly as an absent one. *)
Theorem create_null_business (body : gmap string json) :
  MonkeyBusinessFactory.create (<["business" := JNull]> body) =
  MonkeyBusinessFactory.create (delete "business" body).
Proof.
  unfold MonkeyBusinessFactory.create.
  rewrite !lookup_insert_ne by discriminate.
  rewrite !lookup_delete_ne by discriminate.
  rewrite lookup_insert_eq, lookup_delete_eq. reflexivity.
Qed.
